(** * fasterwhisper_googletrans_server.py: a shallow embedding

    The server is one Python module.  Its request handler [transcribe], the
    capability probe [is_cuda_available], the module-level start-up code and
    the [__main__] block are embedded below as programs of a small state and
    exception monad; the speech engine, the translation client, the
    filesystem and gevent are opaque collaborators, represented by oracles
    that fix the outcome of each of their calls. *)

From Corelib Require Import PrimFloat.
From Stdlib Require Import ZArith Ascii.
From stdpp Require Import gmap strings list fin_maps.

Set Warnings "-register-all".

Open Scope string_scope.

(** ** Python exceptions and statements *)

Module Py.

(** The line feed. *)
Definition nl : string := String "010"%char EmptyString.

(** The part of the built-in exception hierarchy that the module's
    [except] clauses can tell apart. *)
Inductive exn_class :=
| BaseException
| Exception
| OSError
| FileNotFoundError
| SSLError
| NameError
| RuntimeError
| KeyboardInterrupt.

#[export] Instance exn_class_eq_dec : EqDecision exn_class.
Proof. solve_decision. Defined.

(** Method resolution order of a class, itself first. *)
Definition mro (c : exn_class) : list exn_class :=
  match c with
  | BaseException => [BaseException]
  | Exception => [Exception; BaseException]
  | OSError => [OSError; Exception; BaseException]
  | FileNotFoundError => [FileNotFoundError; OSError; Exception; BaseException]
  | SSLError => [SSLError; OSError; Exception; BaseException]
  | NameError => [NameError; Exception; BaseException]
  | RuntimeError => [RuntimeError; Exception; BaseException]
  | KeyboardInterrupt => [KeyboardInterrupt; BaseException]
  end.

Definition issubclass (c d : exn_class) : bool := bool_decide (d ∈ mro c).

(** A raised exception.  [Error c msg tb] is an instance of class [c] with
    [str(e) = msg]; [tb] is the text that [traceback.format_exc()] renders
    while it is being handled.  [SystemExit code] is what [sys.exit(code)]
    raises; it derives from [BaseException] only. *)
Inductive exn :=
| Error (c : exn_class) (msg : string) (tb : string)
| SystemExit (code : Z).

Definition isinstance (e : exn) (d : exn_class) : bool :=
  match e with
  | Error c _ _ => issubclass c d
  | SystemExit _ => bool_decide (d = BaseException)
  end.

(** [str(e)] *)
Definition str (e : exn) : string :=
  match e with
  | Error _ msg _ => msg
  | SystemExit _ => EmptyString
  end.

(** [traceback.format_exc()] inside the handler of [e] *)
Definition format_exc (e : exn) : string :=
  match e with
  | Error _ _ tb => tb
  | SystemExit _ => "SystemExit"
  end.

(** Outcome of a statement inside a function whose result type is [R]: it
    completes with a value, raises, or executes [return r]. *)
Inductive outcome (R A : Type) :=
| Ok (a : A)
| Raise (e : exn)
| Return (r : R).
Arguments Ok {R A} a.
Arguments Raise {R A} e.
Arguments Return {R A} r.

(** Statements over a state [St]. *)
Definition M (St R A : Type) : Type := St → outcome R A * St.

Section monad.
Context {St R : Type}.

Definition ret {A} (a : A) : M St R A := λ s, (Ok a, s).

Definition raise {A} (e : exn) : M St R A := λ s, (Raise e, s).

(** [return r] *)
Definition return_ {A} (r : R) : M St R A := λ s, (Return r, s).

Definition bind {A B} (m : M St R A) (k : A → M St R B) : M St R B :=
  λ s, match m s with
       | (Ok a, s') => k a s'
       | (Raise e, s') => (Raise e, s')
       | (Return r, s') => (Return r, s')
       end.

Definition get : M St R St := λ s, (Ok s, s).

Definition modify (f : St → St) : M St R unit := λ s, (Ok tt, f s).

(** The outcome of a call into a collaborator: [inl e] raises [e]. *)
Definition lift {A} (o : exn + A) : M St R A :=
  match o with
  | inl e => raise e
  | inr a => ret a
  end.

(** An exception raised while [during] is being handled carries it as its
    context, and its traceback shows both. *)
Definition with_context (during e : exn) : exn :=
  match e with
  | Error c msg tb =>
      Error c msg
        (format_exc during +:+ nl +:+
         "During handling of the above exception, another exception occurred:"
         +:+ nl +:+ nl +:+ tb)
  | SystemExit code => SystemExit code
  end.

Definition in_context {A} (during : exn) (m : M St R A) : M St R A :=
  λ s, match m s with
       | (Raise e, s') => (Raise (with_context during e), s')
       | os' => os'
       end.

(** The [except] clauses of one [try], tried in order on the exception
    [e].  The class expression of a clause is evaluated when the clause is
    reached, and may itself raise; a clause whose class [e] is no instance
    of is passed over, and with no clause left [e] goes on propagating. *)
Fixpoint handle {A} (clauses : list (M St R exn_class * (exn → M St R A)))
    (e : exn) : M St R A :=
  match clauses with
  | [] => raise e
  | (cls, handler) :: rest =>
      bind (in_context e cls)
        (λ c, if isinstance e c then in_context e (handler e)
              else handle rest e)
  end.

(** [try: body / except c1 as e: h1 e / except c2 as e: h2 e ...] *)
Definition try_excepts {A} (body : M St R A)
    (clauses : list (M St R exn_class * (exn → M St R A))) : M St R A :=
  λ s, match body s with
       | (Raise e, s') => handle clauses e s'
       | os' => os'
       end.

(** [try: body / except cls as e: handler e] *)
Definition try_except {A} (body : M St R A) (cls : exn_class)
    (handler : exn → M St R A) : M St R A :=
  try_excepts body [(ret cls, handler)].

(** [try: body / finally: final].  [final] runs on every way out of
    [body], a [return] included; when [final] itself raises or returns,
    that replaces the pending outcome. *)
Definition try_finally {A} (body : M St R A) (final : M St R unit)
    : M St R A :=
  λ s, match body s with
       | (o, s') =>
           match final s' with
           | (Ok _, s'') => (o, s'')
           | (Raise e, s'') => (Raise e, s'')
           | (Return r, s'') => (Return r, s'')
           end
       end.
End monad.

(** A function body seen from its caller: [return r] and falling off the
    end with [r] both deliver [r]. *)
Definition def {St R R'} (body : M St R R) : M St R' R :=
  λ s, match body s with
       | (Ok r, s') | (Return r, s') => (Ok r, s')
       | (Raise e, s') => (Raise e, s')
       end.

#[export] Instance M_ret {St R} : MRet (M St R) := @ret St R.
#[export] Instance M_bind {St R} : MBind (M St R) := λ A B k m, bind m k.

End Py.
Import Py.

(** ** JSON values and HTTP messages *)

(** What [jsonify] serialises: Python's [None], [str], [float], [list]
    and [dict]. *)
Inductive json :=
| JNull
| JString (s : string)
| JNumber (f : float)
| JArray (l : list json)
| JObject (o : gmap string json).

(** A value that is [None] or a [str], as [request.form.get(k, None)],
    [info.language] and [translated_text] are. *)
Definition json_of_str (v : option string) : json :=
  match v with
  | Some s => JString s
  | None => JNull
  end.

(** [a(v) if v else b] for a value [v] that is [None] or a [str]: [None]
    and the empty string are false, every other string is true. *)
Definition if_truthy {A} (v : option string) (a : string → A) (b : A) : A :=
  match v with
  | Some s => if bool_decide (s = EmptyString) then b else a s
  | None => b
  end.

Inductive Method := GET | POST.

(** An uploaded file ([werkzeug]'s [FileStorage]). *)
Record FileStorage := { filename : string; stream : list Byte.byte }.

(** [flask.request]: the method, [request.files] and [request.form]. *)
Record Request := {
  method : Method;
  files : gmap string FileStorage;
  form : gmap string string
}.

(** The pair [(jsonify(body), status)] that a view returns. *)
Record Response := { body : gmap string json; status : Z }.

Definition jsonify (o : gmap string json) (code : Z) : Response :=
  {| body := o; status := code |}.

(** ** The speech engine's results *)

(** [segment.start], [segment.end], [segment.text] *)
Record Segment := { start : float; end_ : float; text : string }.

(** The first component of what [batched_model.transcribe] returns is only
    iterated by the handler.  A Python iterable is either re-iterable (a
    [list]: every [for] sees all items) or a one-shot iterator (a
    generator: the items are produced once, a failure of the engine may
    surface while they are drawn, and afterwards it is exhausted). *)
Inductive iterable :=
| PyList (items : list Segment)
| PyGenerator (pending : list Segment) (fault : option exn).

(** An object as its attribute dictionary; the attribute values met here
    are [None] or a [str]. *)
Abbreviation object := (gmap string (option string)).

(** [getattr(o, name, default)] *)
Definition getattr (o : object) (name : string) (default : option string)
    : option string :=
  match o !! name with
  | Some v => v
  | None => default
  end.

(** ** The request pipeline *)

Module Pipeline.

(** Calls into the collaborators, in the order they are made. *)
Inductive Event :=
| EvTempfile (name : string)
| EvSave (name : string)
| EvTranscribe (path : string) (language : option string)
| EvTranslate (src dest txt : string)
| EvRemove (path : string).

#[export] Instance call_eq_dec : EqDecision Event.
Proof. solve_decision. Defined.

(** What a request can observe and change: the files on disk (path to
    contents) and the log of collaborator calls. *)
Record World := {
  fs : gmap string (list Byte.byte);
  calls : list Event
}.

Definition set_fs (f : gmap string (list Byte.byte) → gmap string (list Byte.byte))
    (w : World) : World :=
  {| fs := f (fs w); calls := calls w |}.

Definition log (ev : Event) (w : World) : World :=
  {| fs := fs w; calls := calls w ++ [ev] |}.

(** The outcome of every collaborator call of one request.
    - [mkstemp]: [tempfile] fails, or picks the stem of a file name;
    - [save_fault]: [audio_file.save(tmp)] fails after the file exists;
    - [engine]: [batched_model.transcribe(path, language=...)], from the
      audio stored at [path];
    - [googletrans]: [translator.translate(text, src=..., dest=...)],
      run to completion by [asyncio.run];
    - [remove_fault]: [os.remove] fails although the file is there. *)
Record Env := {
  mkstemp : exn + string;
  save_fault : option exn;
  engine : option (list Byte.byte) → option string →
           exn + (iterable * object);
  googletrans : string → string → string → exn + string;
  remove_fault : option exn
}.

Section handler.
Variable env : Env.

#[local] Abbreviation St := (M World Response).

(** [tempfile.NamedTemporaryFile(delete=False, suffix=...)]: the file
    is created empty, and closing it does not delete it. *)
Definition NamedTemporaryFile (suffix : string) : St string :=
  stem ← lift (mkstemp env);
  let name := stem +:+ suffix in
  modify (λ w, log (EvTempfile name) (set_fs (insert name []) w));;
  mret name.

(** [audio_file.save(tmp)] *)
Definition save (audio_file : FileStorage) (name : string) : St unit :=
  modify (log (EvSave name));;
  match save_fault env with
  | Some e => raise e
  | None => modify (set_fs (insert name (stream audio_file)))
  end.

(** [batched_model.transcribe(path, language=language)] *)
Definition batched_model_transcribe (path : string)
    (language : option string) : St (iterable * object) :=
  w ← get;
  modify (log (EvTranscribe path language));;
  lift (engine env (fs w !! path) language).

(** One full iteration over [it]: the items it yields, and the object
    afterwards. *)
Definition iterate (it : iterable) : St (list Segment * iterable) :=
  match it with
  | PyList items => mret (items, PyList items)
  | PyGenerator pending None => mret (pending, PyGenerator [] None)
  | PyGenerator pending (Some e) => raise e
  end.

(** [asyncio.run(Translate_Google(lang_from, lang_to, text))] *)
Definition Translate_Google (lang_from lang_to txt : string) : St string :=
  modify (log (EvTranslate lang_from lang_to txt));;
  lift (googletrans env txt lang_from lang_to).

(** [os.remove(path)] *)
Definition os_remove (path : string) : St unit :=
  w ← get;
  modify (log (EvRemove path));;
  match remove_fault env with
  | Some e => raise e
  | None =>
      match fs w !! path with
      | Some _ => modify (set_fs (delete path))
      | None =>
          raise (Error FileNotFoundError "No such file or directory"
                       "FileNotFoundError")
      end
  end.

Definition segment_dict (segment : Segment) : json :=
  JObject {[ "start" := JNumber (start segment);
             "end" := JNumber (end_ segment);
             "text" := JString (text segment) ]}.

(** The three JSON bodies that lines 98-101, 123-127 and 136-142 build. *)
Definition save_error (e : exn) : gmap string json :=
  {[ "error" := JString "Failed to temporarily save the audio file";
     "details" := JString (str e) ]}.

Definition process_error (e : exn) : gmap string json :=
  {[ "error" := JString "Failed to process transcription";
     "details" := JString (str e);
     "trace" := JString (format_exc e) ]}.

Definition result (full_text : string) (translated_text : option string)
    (segments_list : list json) (detected_language : option string)
    : gmap string json :=
  {[ "transcript_text" := JString full_text;
     "translated_text" := json_of_str translated_text;
     "segments" := JArray segments_list;
     "language" := json_of_str detected_language ]}.

(** Lines 93-101: the upload is saved to a temporary file, whose name is
    the result. *)
Definition save_upload (audio_file : FileStorage) : St string :=
  try_except
    (tmp ← NamedTemporaryFile ".mp3";
     save audio_file tmp;;
     mret tmp)
    Exception
    (λ e, return_ (jsonify (save_error e) 500)).

(** Lines 104-120: [full_text], [translated_text], [segments_list] and
    [detected_language]. *)
Definition process (tmp_filename : string)
    (from_language to_language : option string)
    : St (string * option string * list json * option string) :=
  '(segments, info) ← batched_model_transcribe tmp_filename from_language;
  '(items, segments) ← iterate segments;
  let full_text := String.concat EmptyString (text <$> items) in
  '(items, segments) ← iterate segments;
  let segments_list := segment_dict <$> items in
  let detected_language := getattr info "language" from_language in
  translated_text ←
    if_truthy to_language
      (λ to_language,
         let from_lang_google := if_truthy detected_language id "auto" in
         t ← Translate_Google from_lang_google to_language full_text;
         mret (Some t))
      (mret None);
  mret (full_text, translated_text, segments_list, detected_language).

(** Lines 128-133: the [finally] clause. *)
Definition cleanup (tmp_filename : string) : St unit :=
  try_except (os_remove tmp_filename) Exception (λ _, mret tt).

(** The body of the view function [transcribe] (lines 82-142). *)
Definition transcribe_body (request : Request) : St Response :=
  match method request with
  | GET => return_ (jsonify {[ "status" := JString "ok" ]} 200)
  | POST =>
    match files request !! "audio_file" with
    | None =>
        return_ (jsonify
          {[ "error" := JString "audio_file is not included in the request" ]}
          400)
    | Some audio_file =>
      let from_language := form request !! "from_language" in
      let to_language := form request !! "to_language" in
      tmp_filename ← save_upload audio_file;
      '(full_text, translated_text, segments_list, detected_language) ←
        try_finally
          (try_except
             (process tmp_filename from_language to_language)
             Exception
             (λ e, return_ (jsonify (process_error e) 500)))
          (cleanup tmp_filename);
      return_ (jsonify
        (result full_text translated_text segments_list detected_language)
        200)
    end
  end.

(** [handle_exception], registered with [@app.errorhandler(Exception)] *)
Definition handle_exception (e : exn) : Response :=
  jsonify
    {[ "error" := JString "An internal server error has occurred.";
       "details" := JString (str e);
       "trace" := JString (format_exc e) ]}
    500.

(** The view as Flask dispatches it: an [Exception] that leaves the view
    is turned into a response by [handle_exception]. *)
Definition transcribe (request : Request) : St Response :=
  try_except (def (transcribe_body request)) Exception
    (λ e, mret (handle_exception e)).

(** A request served from the world [w]: the response (or the exception
    that escapes Flask) and the world afterwards. *)
Definition serve (request : Request) (w : World)
    : outcome Response Response * World :=
  transcribe request w.
End handler.

(** *** Notions used to state the properties *)

(** The collaborator calls that a request adds to the log of [w]. *)
Definition new_calls (env : Env) (request : Request) (w : World)
    : list Event :=
  drop (length (calls w)) (calls (serve env request w).2).

(** What an [except Exception as e: return r e] clause makes of [e]. *)
Definition caught {A} (r : exn → Response) (e : exn) : outcome Response A :=
  if isinstance e Exception then Return (r e) else Raise e.

(** The steps of [process] after the two iterations over [segments]
    yielded [first] and [second]. *)
Definition translate_stage (env : Env) (info : object)
    (first second : list Segment) (from_language to_language : option string)
    (w : World)
    : outcome Response (string * option string * list json * option string)
      * World :=
  let full_text := String.concat EmptyString (text <$> first) in
  let detected_language := getattr info "language" from_language in
  let from_lang_google := if_truthy detected_language id "auto" in
  if_truthy to_language
    (λ to_language,
       let w' := log (EvTranslate from_lang_google to_language full_text) w in
       match googletrans env full_text from_lang_google to_language with
       | inl e => (Raise e, w')
       | inr t =>
           (Ok (full_text, Some t, segment_dict <$> second, detected_language),
            w')
       end)
    (Ok (full_text, None, segment_dict <$> second, detected_language), w).

(** What Flask makes of an exception [e] that leaves the view. *)
Definition dispatched (e : exn) : outcome Response Response :=
  if isinstance e Exception then Ok (handle_exception e) else Raise e.

(** The answer to a request whose upload was saved, from the outcome [o]
    of [process] and the outcome [c] of [cleanup]. *)
Definition answer
    (o : outcome Response (string * option string * list json * option string))
    (c : outcome Response unit) : outcome Response Response :=
  match c with
  | Ok _ =>
      match o with
      | Ok (full_text, translated_text, segments_list, detected_language) =>
          Ok (jsonify (result full_text translated_text segments_list
                              detected_language) 200)
      | Raise e =>
          if isinstance e Exception then Ok (jsonify (process_error e) 500)
          else Raise e
      | Return r => Ok r
      end
  | Raise e => dispatched e
  | Return r => Ok r
  end.

(** The request without its [to_language] field. *)
Definition without_to_language (request : Request) : Request :=
  {| method := method request; files := files request;
     form := delete "to_language" (form request) |}.

(** The [text] member of an element of the [segments] array. *)
Definition segment_text (j : json) : string :=
  match j with
  | JObject o =>
      match o !! "text" with
      | Some (JString t) => t
      | _ => EmptyString
      end
  | _ => EmptyString
  end.

(** The in-order concatenation of the [text] members of the [segments]
    array of a response body. *)
Definition segments_text (b : gmap string json) : option string :=
  match b !! "segments" with
  | Some (JArray l) => Some (String.concat EmptyString (segment_text <$> l))
  | _ => None
  end.

(** The stages of the pipeline at which a collaborator can fail. *)
Inductive Stage := Saving | Transcribing | Translating.

(** The items that one iteration over a fresh [it] yields. *)
Definition yielded (it : iterable) : list Segment :=
  match it with
  | PyList items => items
  | PyGenerator pending _ => pending
  end.

(** The language that the response reports: the [language] attribute of
    [info] when it has one, else the hint. *)
Definition reported_language (info : object) (hint : option string)
    : option string :=
  match info !! "language" with
  | Some detected => detected
  | None => hint
  end.

(** The source language for the translation client. *)
Definition source_language (language : option string) : string :=
  match language with
  | Some l => if bool_decide (l = EmptyString) then "auto" else l
  | None => "auto"
  end.

(** The first collaborator call that fails while [request] is served, if
    one does: the stage it belongs to and the exception. *)
Definition failure (env : Env) (request : Request) (audio_file : FileStorage)
    : option (Stage * exn) :=
  match mkstemp env with
  | inl e => Some (Saving, e)
  | inr _ =>
      match save_fault env with
      | Some e => Some (Saving, e)
      | None =>
          let hint := form request !! "from_language" in
          match engine env (Some (stream audio_file)) hint with
          | inl e => Some (Transcribing, e)
          | inr (PyGenerator _ (Some e), _) => Some (Transcribing, e)
          | inr (it, info) =>
              match form request !! "to_language" with
              | Some dest =>
                  if bool_decide (dest = EmptyString) then None
                  else
                    match googletrans env
                            (String.concat EmptyString (text <$> yielded it))
                            (source_language (reported_language info hint))
                            dest with
                    | inl e => Some (Translating, e)
                    | inr _ => None
                    end
              | None => None
              end
          end
      end
  end.

(** The answer of line 86. *)
Definition missing_upload : Response :=
  jsonify {[ "error" := JString "audio_file is not included in the request" ]}
          400.

End Pipeline.

(** ** Process start-up and shutdown *)

Module Startup.

(** What the process does that can be observed from outside, in order. *)
Inductive Event :=
| EvProbe
| EvLoadLibrary (name : string)
| EvLoadModel (model device compute : string)
| EvStdout (line : string)
| EvStderr (line : string)
| EvErrorLog (line : string)
| EvStart (port : Z)
| EvWait
| EvStop (port : Z).

#[export] Instance event_eq_dec : EqDecision Event.
Proof. solve_decision. Defined.

(** State of the interpreter running the module: the names bound in the
    module namespace, whether [sys.excepthook] has been replaced, the
    ports with a started server, and the events so far. *)
Record Proc := {
  globals : gset string;
  excepthook : bool;
  listening : gset Z;
  events : list Event
}.

Definition boot : Proc :=
  {| globals := ∅; excepthook := false; listening := ∅; events := [] |}.

Definition emit (ev : Event) (p : Proc) : Proc :=
  {| globals := globals p; excepthook := excepthook p;
     listening := listening p; events := events p ++ [ev] |}.

Definition set_globals (f : gset string → gset string) (p : Proc) : Proc :=
  {| globals := f (globals p); excepthook := excepthook p;
     listening := listening p; events := events p |}.

Definition set_listening (f : gset Z → gset Z) (p : Proc) : Proc :=
  {| globals := globals p; excepthook := excepthook p;
     listening := f (listening p); events := events p |}.

Definition set_excepthook (b : bool) (p : Proc) : Proc :=
  {| globals := globals p; excepthook := b;
     listening := listening p; events := events p |}.

(** The host and the libraries, as the outcome of each call.
    - [sys_platform]: [sys.platform];
    - [LoadLibraryW n name]: the [n]-th call (from 0) of
      [ctypes.windll.kernel32.LoadLibraryW]: a module handle, 0 when the
      library cannot be loaded, or an [OSError];
    - [load_model]: [WhisperModel(...)] followed by
      [BatchedInferencePipeline(model=model)];
    - [new_server port]: the [WSGIServer] constructor for [port];
    - [start_server port]: [server.start()];
    - [wait]: how [gevent.wait()] ends: [None] when it returns because
      the hub has nothing left to run, [Some e] when [e] is raised in it;
    - [now]: [datetime.now().strftime('%Y-%m-%d %H:%M:%S')]. *)
Record Host := {
  sys_platform : string;
  LoadLibraryW : nat → string → exn + Z;
  load_model : string → string → string → option exn;
  new_server : Z → option exn;
  start_server : Z → option exn;
  wait : option exn;
  now : string
}.

Section script.
Variable host : Host.
Context {R : Type}.

#[local] Abbreviation St := (M Proc R).

Definition fault (o : option exn) : St unit :=
  match o with
  | Some e => raise e
  | None => mret tt
  end.

(** [import name], [def name], [name = ...]: [name] becomes bound. *)
Definition bind_name (name : string) : St unit :=
  modify (set_globals (λ g, {[ name ]} ∪ g)).

Definition bind_names (names : list string) : St unit :=
  modify (set_globals (λ g, list_to_set names ∪ g)).

(** Reading the global [name]: a name that was never bound raises
    [NameError]. *)
Definition load_name (name : string) : St unit :=
  p ← get;
  if bool_decide (name ∈ globals p) then mret tt
  else raise (Error NameError ("name '" +:+ name +:+ "' is not defined")
                    "NameError").

Definition print (line : string) : St unit := modify (emit (EvStdout line)).

Definition print_stderr (line : string) : St unit :=
  modify (emit (EvStderr line)).

(** [sys.exit(code)] *)
Definition sys_exit {A} (code : Z) : St A := raise (SystemExit code).

(** [traceback.print_exc()] *)
Definition print_exc (e : exn) : St unit :=
  modify (emit (EvStderr (format_exc e))).
End script.

Definition is_load (ev : Event) : bool :=
  match ev with
  | EvLoadLibrary _ => true
  | _ => false
  end.

(** The number of [LoadLibraryW] calls made so far. *)
Definition loads (p : Proc) : nat := length (List.filter is_load (events p)).

(** [is_cuda_available] (lines 30-37) *)
Definition is_cuda_available (host : Host) : M Proc bool bool :=
  modify (emit EvProbe);;
  (if bool_decide (sys_platform host ≠ "win32") then return_ false
   else mret tt);;
  try_except
    (p ← get;
     modify (emit (EvLoadLibrary "nvcuda.dll"));;
     handle ← lift (LoadLibraryW host (loads p) "nvcuda.dll");
     return_ (negb (bool_decide (handle = 0%Z))))
    OSError
    (λ _, return_ false).


(** Lines 8-28 bind the imported names and [app]. *)
Definition imports : list string :=
  [ "os"; "sys"; "tempfile"; "traceback"; "asyncio"; "ctypes";
    "Flask"; "request"; "jsonify";
    "WhisperModel"; "BatchedInferencePipeline";
    "Translator"; "WSGIServer"; "gevent"; "datetime"; "app" ].

Definition accelerated_profile : string := "large-v3-turbo".
Definition fallback_profile : string := "tiny".
Definition accelerated_device : string := "cuda".
Definition fallback_device : string := "cpu".

(** The module-level settings of lines 39-41. *)
Record Settings := {
  MODEL_NAME : string;
  DEVICE : string;
  COMPUTE_TYPE : string
}.

Section script.
Variable host : Host.

#[local] Abbreviation St := (M Proc unit).

(** Lines 39-41 *)
Definition settings : St Settings :=
  bind_name "is_cuda_available";;
  cuda ← def (is_cuda_available host);
  let MODEL_NAME := if cuda : bool then accelerated_profile else fallback_profile in
  bind_name "MODEL_NAME";;
  cuda ← def (is_cuda_available host);
  let DEVICE := if cuda : bool then accelerated_device else fallback_device in
  bind_name "DEVICE";;
  let COMPUTE_TYPE := "auto" in
  bind_name "COMPUTE_TYPE";;
  mret {| MODEL_NAME := MODEL_NAME; DEVICE := DEVICE;
          COMPUTE_TYPE := COMPUTE_TYPE |}.

(** Lines 43-50: the model is loaded, or the process exits with 1. *)
Definition load (cfg : Settings) : St unit :=
  try_except
    (print ("Loading faster-whisper model '" +:+ MODEL_NAME cfg +:+ "' on "
            +:+ DEVICE cfg +:+ " (" +:+ COMPUTE_TYPE cfg +:+ ") ...");;
     modify (emit (EvLoadModel (MODEL_NAME cfg) (DEVICE cfg)
                               (COMPUTE_TYPE cfg)));;
     fault (load_model host (MODEL_NAME cfg) (DEVICE cfg) (COMPUTE_TYPE cfg));;
     bind_names ["model"; "batched_model"];;
     print "Batched Model loaded successfully.")
    Exception
    (λ e, print_stderr ("Error loading model: " +:+ str e);;
          sys_exit 1).

(** [custom_exception_handler] (lines 145-160): the entry goes to
    [./error.log] and to the console, then the process exits with 1. *)
Definition custom_exception_handler (e : exn) : St unit :=
  let head := "[" +:+ now host +:+ "] Uncaught exception:" +:+ nl in
  modify (emit (EvErrorLog nl));;
  modify (emit (EvErrorLog head));;
  print (nl +:+ head);;
  modify (emit (EvErrorLog (format_exc e)));;
  print (format_exc e);;
  sys_exit 1.

(** Lines 52-164: the remaining definitions, and the hook. *)
Definition definitions : St unit :=
  bind_names ["Translate_Google"; "handle_exception"; "transcribe";
              "custom_exception_handler"];;
  modify (set_excepthook true).

(** [WSGIServer(('0.0.0.0', port), app, ...)] bound to [name] *)
Definition WSGIServer (name : string) (port : Z) : St unit :=
  fault (new_server host port);;
  bind_name name.

(** [name.start()] for the server on [port] *)
Definition start (name : string) (port : Z) : St unit :=
  load_name name;;
  fault (start_server host port);;
  modify (λ p, emit (EvStart port) (set_listening (λ l, {[ port ]} ∪ l) p)).

(** [name.stop()] for the server on [port] *)
Definition stop (name : string) (port : Z) : St unit :=
  load_name name;;
  modify (λ p, emit (EvStop port) (set_listening (λ l, l ∖ {[ port ]}) p)).

(** [gevent.wait()]: the started servers serve requests until it ends. *)
Definition gevent_wait : St unit :=
  modify (emit EvWait);;
  fault (wait host).

(** The class expression [ssl.SSLError] of line 192. *)
Definition ssl_SSLError : St exn_class :=
  load_name "ssl";;
  mret SSLError.

(** The [__main__] block (lines 166-207). *)
Definition main : St unit :=
  bind_names ["SSL_CERT_FILE"; "SSL_KEY_FILE"];;
  WSGIServer "http_server" 9000;;
  try_excepts
    (WSGIServer "https_server" 9443;;
     print "Starting HTTP server on port 9000";;
     start "http_server" 9000;;
     print "Starting HTTPS server on port 9443";;
     start "https_server" 9443;;
     print "Servers are running. Press Ctrl+C to stop.")
    [ (ssl_SSLError,
       λ e, print_stderr ("SSL Error: " +:+ str e));
      (mret Exception,
       λ e, print_stderr ("An error occurred while starting the server: "
                          +:+ str e);;
            print_exc e) ];;
  try_excepts gevent_wait
    [ (mret KeyboardInterrupt,
       λ _, print (nl +:+ "Shutdown requested. Stopping servers...");;
            stop "http_server" 9000;;
            stop "https_server" 9443;;
            print "Servers stopped successfully.";;
            sys_exit 0) ].

(** The whole module, top to bottom. *)
Definition module : St unit :=
  bind_names imports;;
  cfg ← settings;
  load cfg;;
  definitions;;
  main.

(** The interpreter running [script] to its end: the exit status and the
    final state.  [SystemExit] ends the process with its code; any other
    exception that reaches the top goes to [sys.excepthook], which is
    [custom_exception_handler] once line 164 has run and otherwise prints
    the traceback; either way the status is 1. *)
Definition python (script : St unit) (p : Proc) : Z * Proc :=
  match script p with
  | (Ok _, p') | (Return _, p') => (0%Z, p')
  | (Raise (SystemExit code), p') => (code, p')
  | (Raise e, p') =>
      if excepthook p' then
        match custom_exception_handler e p' with
        | (Raise (SystemExit code), p'') => (code, p'')
        | (_, p'') => (1%Z, p'')
        end
      else (1%Z, emit (EvStderr (format_exc e)) p')
  end.

(** [python fasterwhisper_googletrans_server.py] *)
Definition run : Z * Proc := python module boot.
End script.

(** *** Notions used to state the properties *)

Definition is_probe (ev : Event) : bool :=
  match ev with
  | EvProbe => true
  | _ => false
  end.

(** The number of evaluations of [is_cuda_available] so far. *)
Definition probes (p : Proc) : nat :=
  length (List.filter is_probe (events p)).


(** The first failure of the [try] block of lines 176-190, if any: the
    TLS server cannot be built, or one of the listeners cannot start. *)
Definition startup_failure (host : Host) : option exn :=
  match new_server host 9443 with
  | Some e => Some e
  | None =>
      match start_server host 9000 with
      | Some e => Some e
      | None => start_server host 9443
      end
  end.

Definition ssl_is_not_defined : exn :=
  Error NameError "name 'ssl' is not defined" "NameError".

(** The events of a probe. *)
Definition quiet (ev : Event) : Prop :=
  ev = EvProbe ∨ ev = EvLoadLibrary "nvcuda.dll".

End Startup.

(** ** Concrete requests and hosts *)

Module Sample.
Import Pipeline.

Definition clip : FileStorage :=
  {| filename := "clip.mp3"; stream := [Byte.x49; Byte.x44; Byte.x33] |}.

(** A POST with the upload and the given form fields. *)
Definition upload (fields : gmap string string) : Request :=
  {| method := POST; files := {[ "audio_file" := clip ]}; form := fields |}.


Definition hello : list Segment :=
  [ {| start := 0; end_ := 0.5; text := "hello" |};
    {| start := 0.5; end_ := 1.25; text := " world" |} ].

Definition english : object := {[ "language" := Some "en" ]}.

Definition disk_full : exn :=
  Error OSError "[Errno 28] No space left on device" "OSError: [Errno 28]".

Definition unreachable : exn :=
  Error RuntimeError "translation backend unreachable" "RuntimeError".

(** An environment in which every call succeeds: the engine yields
    [segments] and [info], the translation is the text in brackets. *)
Definition env (segments : iterable) (info : object) : Env :=
  {| mkstemp := inr "/tmp/tmpk3v9";
     save_fault := None;
     engine := λ _ _, inr (segments, info);
     googletrans := λ txt _ dest, inr ("[" +:+ dest +:+ "]" +:+ txt);
     remove_fault := None |}.

(** The same, but writing the upload fails. *)
Definition env_disk_full : Env :=
  {| mkstemp := inr "/tmp/tmpk3v9";
     save_fault := Some disk_full;
     engine := λ _ _, inr (PyList hello, english);
     googletrans := λ txt _ dest, inr ("[" +:+ dest +:+ "]" +:+ txt);
     remove_fault := None |}.

(** The same, but the translation fails. *)
Definition env_offline : Env :=
  {| mkstemp := inr "/tmp/tmpk3v9";
     save_fault := None;
     engine := λ _ _, inr (PyList hello, english);
     googletrans := λ _ _ _, inl unreachable;
     remove_fault := None |}.

Definition disk : World :=
  {| fs := {[ "/srv/server.crt" := [Byte.x2d] ]}; calls := [] |}.

(** A GET that carries an upload and a target language all the same. *)
Definition ping : Request :=
  {| method := GET; files := {[ "audio_file" := clip ]};
     form := {[ "to_language" := "ja" ]} |}.

Definition locked : exn :=
  Error OSError "[WinError 32] The process cannot access the file"
        "PermissionError: [WinError 32]".

(** Every call succeeds, but the temporary file cannot be deleted. *)
Definition env_locked : Env :=
  {| mkstemp := inr "/tmp/tmpk3v9";
     save_fault := None;
     engine := λ _ _, inr (PyList hello, english);
     googletrans := λ txt _ dest, inr ("[" +:+ dest +:+ "]" +:+ txt);
     remove_fault := Some locked |}.

End Sample.

Module HostSample.
Import Startup.
Definition interrupt : exn := Error KeyboardInterrupt EmptyString "KeyboardInterrupt".

Definition pem_error : exn :=
  Error SSLError "[SSL] PEM lib (_ssl.c:3874)" "ssl.SSLError: [SSL] PEM lib".

(** A Linux host on which everything starts, interrupted later. *)
Definition linux : Host :=
  {| sys_platform := "linux";
     LoadLibraryW := λ _ _, inr 0%Z;
     load_model := λ _ _ _, None;
     new_server := λ _, None;
     start_server := λ _, None;
     wait := Some interrupt;
     now := "2025-03-01 12:00:00" |}.


(** The Linux host with a certificate that the TLS listener rejects when
    it starts. *)
Definition bad_certificate : Host :=
  {| sys_platform := "linux";
     LoadLibraryW := λ _ _, inr 0%Z;
     load_model := λ _ _ _, None;
     new_server := λ _, None;
     start_server := λ port, if bool_decide (port = 9443%Z)
                             then Some pem_error else None;
     wait := Some interrupt;
     now := "2025-03-01 12:00:00" |}.
Definition out_of_memory : exn :=
  Error RuntimeError "CUDA failed with error out of memory" "RuntimeError".

(** A Windows host whose driver library loads, but on which the model
    does not fit. *)
Definition no_model : Host :=
  {| sys_platform := "win32";
     LoadLibraryW := λ _ _, inr 140703128616960%Z;
     load_model := λ _ _ _, Some out_of_memory;
     new_server := λ _, None;
     start_server := λ _, None;
     wait := Some interrupt;
     now := "2025-03-01 12:00:00" |}.

Definition key_missing : exn :=
  Error FileNotFoundError "[Errno 2] No such file or directory"
        "FileNotFoundError: [Errno 2]".

(** The Linux host without [server.key]: the TLS server cannot be built. *)
Definition no_key : Host :=
  {| sys_platform := "linux";
     LoadLibraryW := λ _ _, inr 0%Z;
     load_model := λ _ _ _, None;
     new_server := λ port, if bool_decide (port = 9443%Z)
                           then Some key_missing else None;
     start_server := λ _, None;
     wait := Some interrupt;
     now := "2025-03-01 12:00:00" |}.

Definition hub_error : exn :=
  Error RuntimeError "hub is dead" "RuntimeError: hub is dead".

(** The Linux host on which [gevent.wait()] fails. *)
Definition crashing : Host :=
  {| sys_platform := "linux";
     LoadLibraryW := λ _ _, inr 0%Z;
     load_model := λ _ _ _, None;
     new_server := λ _, None;
     start_server := λ _, None;
     wait := Some hub_error;
     now := "2025-03-01 12:00:00" |}.

(** The state in which the [__main__] block is entered. *)
Definition at_main : Proc :=
  {| globals := list_to_set imports; excepthook := true;
     listening := ∅; events := [] |}.

End HostSample.

(** ** Properties *)

Ltac unfold_monad :=
  unfold mbind, M_bind, mret, M_ret, bind, ret, raise, return_, get, modify,
    lift, try_except, try_excepts, try_finally, def, in_context in *.

Ltac by_computation :=
  refine (bool_decide_unpack _ _); vm_compute; exact I.

(** *** The request pipeline *)

Module PipelineFacts.
Import Pipeline.

Ltac crunch := repeat (progress (unfold_monad; cbn)).

(** **** The blocks of the handler, statement by statement *)

Section blocks.
Variable env : Env.

(** Saving the upload: nothing is created when [tempfile] fails; when the
    write fails the empty file stays behind. *)
Lemma save_upload_eq audio_file w :
  save_upload env audio_file w =
    match mkstemp env with
    | inl e => (caught (λ e, jsonify (save_error e) 500) e, w)
    | inr stem =>
        let name := stem +:+ ".mp3" in
        let w' := log (EvSave name)
                    (log (EvTempfile name) (set_fs (insert name []) w)) in
        match save_fault env with
        | Some e => (caught (λ e, jsonify (save_error e) 500) e, w')
        | None => (Ok name, set_fs (insert name (stream audio_file)) w')
        end
    end.
Proof.
  unfold save_upload, NamedTemporaryFile, save, caught. crunch.
  destruct (mkstemp env) as [e|stem]; crunch.
  - destruct (isinstance e Exception); reflexivity.
  - destruct (save_fault env) as [e|]; crunch; [|reflexivity].
    destruct (isinstance e Exception); reflexivity.
Qed.

(** Transcription and translation.  A list of segments is seen by both
    iterations, a generator by the first only. *)
Lemma process_eq tmp_filename from_language to_language w :
  process env tmp_filename from_language to_language w =
    let w' := log (EvTranscribe tmp_filename from_language) w in
    match engine env (fs w !! tmp_filename) from_language with
    | inl e => (Raise e, w')
    | inr (PyList items, info) =>
        translate_stage env info items items from_language to_language w'
    | inr (PyGenerator pending None, info) =>
        translate_stage env info pending [] from_language to_language w'
    | inr (PyGenerator _ (Some e), _) => (Raise e, w')
    end.
Proof.
  unfold process, batched_model_transcribe, iterate, Translate_Google,
    translate_stage. crunch.
  destruct (engine _ _ _) as [e|[[items|pending [e|]] info]]; crunch;
    try reflexivity.
  all: unfold if_truthy; destruct to_language as [dest|]; try reflexivity;
    case_bool_decide; try reflexivity; crunch;
    destruct (googletrans _ _ _ _); reflexivity.
Qed.

(** The [finally] clause: one call of [os.remove]; an [Exception] it
    raises, the missing file included, is dropped. *)
Lemma cleanup_eq tmp_filename w :
  cleanup env tmp_filename w =
    let w' := log (EvRemove tmp_filename) w in
    match remove_fault env with
    | Some e => (if isinstance e Exception then Ok () else Raise e, w')
    | None => (Ok (), set_fs (delete tmp_filename) w')
    end.
Proof.
  unfold cleanup, os_remove. crunch.
  destruct (remove_fault env) as [e|]; crunch.
  - destruct (isinstance e Exception); reflexivity.
  - destruct (fs w !! tmp_filename) eqn:Hfile; crunch; [reflexivity|].
    unfold set_fs, log; cbn. by rewrite delete_id.
Qed.
End blocks.

Section requests.
Variable env : Env.
Variables (request : Request) (audio_file : FileStorage).
Hypothesis Hmethod : method request = POST.
Hypothesis Hfile : files request !! "audio_file" = Some audio_file.

(** A POST with an upload, as the composition of the three blocks. *)
Lemma serve_eq w :
  serve env request w =
    match save_upload env audio_file w with
    | (Ok tmp_filename, w1) =>
        let '(o, w2) := process env tmp_filename
                          (form request !! "from_language")
                          (form request !! "to_language") w1 in
        let '(c, w3) := cleanup env tmp_filename w2 in
        (answer o c, w3)
    | (Raise e, w1) => (dispatched e, w1)
    | (Return r, w1) => (Ok r, w1)
    end.
Proof.
  unfold serve, transcribe, transcribe_body. rewrite Hmethod, Hfile.
  unfold answer, dispatched.
  unfold_monad; cbn -[save_upload process cleanup].
  destruct (save_upload env audio_file w) as [[name|e|r] w1];
    cbn -[process cleanup]; [| by destruct (isinstance e Exception) | done].
  destruct (process _ _ _ _ _) as [[[[[ft tr] sl] dl]|e|r] w2];
    destruct (cleanup env name w2) as [[[]|e'|r'] w3] eqn:Hc.
  all: repeat (progress (unfold_monad; cbn -[cleanup]; rewrite ?Hc)
               || match goal with
                  | |- context [isinstance ?x Exception] =>
                      destruct (isinstance x Exception) eqn:?
                  end).
  all: done.
Qed.
End requests.

(** **** Requests without an upload *)

Lemma drop_calls (l l' : list Event) : drop (length l) (l ++ l') = l'.
Proof. by rewrite drop_app_length. Qed.

(** The guard of line 85 answers at once: nothing is asked of the
    environment and the world is handed back as it was. *)
Lemma serve_missing_upload env request w :
  method request = POST →
  files request !! "audio_file" = None →
  serve env request w = (Ok missing_upload, w).
Proof.
  intros Hm Hf.
  unfold serve, transcribe, transcribe_body. rewrite Hm, Hf. reflexivity.
Qed.





(** **** Requests with an upload *)

(** The paths of a request with an upload, one goal for each outcome of
    the collaborators that the goal depends on. *)
Ltac cases_on x := destruct x eqn:?; cbn -[String.concat] in *.

Ltac paths :=
  repeat match goal with
         | |- context [match mkstemp ?env with _ => _ end] =>
             cases_on (mkstemp env)
         | |- context [match save_fault ?env with _ => _ end] =>
             cases_on (save_fault env)
         | |- context [process ?env ?n ?f ?t ?w] =>
             rewrite (process_eq env n f t w); cbn -[String.concat];
             rewrite ?lookup_insert_eq
         | |- context [cleanup ?env ?n ?w] =>
             rewrite (cleanup_eq env n w); cbn -[String.concat]
         | |- _ =>
             progress unfold caught, dispatched, translate_stage, if_truthy,
               answer, getattr;
             cbn -[String.concat]
         | H : ?x = _ |- context [match ?x with _ => _ end] =>
             rewrite H; cbn -[String.concat]
         | |- context [bool_decide ?P] =>
             first [ rewrite (bool_decide_eq_true_2 P) by done
                   | rewrite (bool_decide_eq_false_2 P) by done
                   | case_bool_decide ];
             cbn -[String.concat]
         | |- context [match engine ?env ?c ?l with _ => _ end] =>
             cases_on (engine env c l)
         | |- context [match googletrans ?env ?t ?s ?d with _ => _ end] =>
             cases_on (googletrans env t s d)
         | |- context [match remove_fault ?env with _ => _ end] =>
             cases_on (remove_fault env)
         | |- context [isinstance ?e Exception] =>
             cases_on (isinstance e Exception)
         | |- context [match ?x with _ => _ end] =>
             lazymatch x with
             | context [match _ with _ => _ end] => fail
             | _ => cases_on x
             end
         end.

Ltac new_calls_list :=
  unfold new_calls, log, set_fs; cbn -[String.concat];
  rewrite <- ?app_assoc, ?drop_calls, ?drop_all; cbn -[String.concat].

Ltac not_in_list :=
  rewrite ?not_elem_of_cons; repeat split; solve [done | apply not_elem_of_nil].

Ltac flatten Hm Hf :=
  rewrite (serve_eq _ _ _ Hm Hf), save_upload_eq;
  unfold reported_language, source_language;
  paths.

(** An empty [to_language] takes [process] down the same path as none. *)
Lemma process_empty_to_language env tmp_filename from_language w :
  process env tmp_filename from_language (Some EmptyString) w =
  process env tmp_filename from_language None w.
Proof. by rewrite !process_eq. Qed.

Lemma serve_empty_to_language env request w :
  form request !! "to_language" = Some EmptyString →
  serve env request w = serve env (without_to_language request) w.
Proof.
  intros Ht. unfold serve, transcribe, transcribe_body, without_to_language.
  cbn. destruct (method request); [done|].
  destruct (files request !! "audio_file") as [audio_file|]; [|done].
  rewrite lookup_delete_eq, lookup_delete_ne, Ht by done.
  unfold_monad. cbn -[save_upload process cleanup].
  destruct (save_upload _ _ _) as [[name| |] w1]; [|done..].
  by rewrite process_empty_to_language.
Qed.

(** C9: when the [to_language] field of a POST is the empty string, the
    request is served exactly as the same request without that field: the
    translation client is not called, and [translated_text] in the
    response is null. *)
Theorem empty_to_language_is_absent env request w :
  method request = POST →
  form request !! "to_language" = Some EmptyString →
  serve env request w = serve env (without_to_language request) w ∧
  (∀ src dest txt, EvTranslate src dest txt ∉ new_calls env request w) ∧
  (∀ resp, (serve env request w).1 = Ok resp → status resp = 200%Z →
           body resp !! "translated_text" = Some JNull).
Proof.
  intros Hm Ht. split; [by apply serve_empty_to_language|].
  destruct (files request !! "audio_file") as [audio_file|] eqn:Hf.
  - split.
    + intros src dest txt. unfold new_calls. flatten Hm Hf.
      all: new_calls_list; not_in_list.
    + intros resp. flatten Hm Hf.
      all: by intros [= <-].
  - unfold new_calls. rewrite (serve_missing_upload env request w Hm Hf).
    split; [|by intros resp [= <-]].
    cbn. rewrite drop_all. intros; apply not_elem_of_nil.
Qed.

Lemma empty_to_language_is_absent_witness :
  let env := Sample.env (PyList Sample.hello) Sample.english in
  let request := Sample.upload {[ "to_language" := EmptyString ]} in
  serve env request Sample.disk
    = serve env (without_to_language request) Sample.disk ∧
  (∀ src dest txt,
     EvTranslate src dest txt ∉ new_calls env request Sample.disk) ∧
  (∀ resp, (serve env request Sample.disk).1 = Ok resp →
           status resp = 200%Z →
           body resp !! "translated_text" = Some JNull).
Proof. apply empty_to_language_is_absent; reflexivity. Defined.



(** X9: the deletion in the [finally] clause is best effort: when
    [os.remove] fails with an [Exception], the answer is the one of the
    same request with a deletion that works. *)
Lemma deletion_failure_is_swallowed env request w e :
  remove_fault env = Some e →
  isinstance e Exception = true →
  (serve env request w).1 =
  (serve {| mkstemp := mkstemp env; save_fault := save_fault env;
            engine := engine env; googletrans := googletrans env;
            remove_fault := None |} request w).1.
Proof.
  intros Hr He. destruct (method request) eqn:Hm.
  { unfold serve, transcribe, transcribe_body. by rewrite Hm. }
  destruct (files request !! "audio_file") as [audio_file|] eqn:Hf.
  2:{ by rewrite !serve_missing_upload. }
  rewrite !(serve_eq _ _ _ Hm Hf), !save_upload_eq. unfold caught. cbn.
  destruct (mkstemp env) as [e0|stem];
    [by destruct (isinstance e0 Exception)|]. cbn.
  destruct (save_fault env) as [e0|];
    [by destruct (isinstance e0 Exception)|].
  rewrite !process_eq. unfold translate_stage. cbn.
  destruct (engine _ _ _) as [?|[[?|? [?|]] ?]];
    try destruct (if_truthy _ _ _) as [o w2].
  all: by rewrite !cleanup_eq; cbn; rewrite Hr, He.
Qed.

(** [process] reads the temporary file and writes nothing. *)
Lemma process_fs env tmp_filename from_language to_language w :
  fs (process env tmp_filename from_language to_language w).2 = fs w.
Proof.
  rewrite process_eq. unfold translate_stage, if_truthy. cbn.
  destruct (engine _ _ _) as [?|[[?|? [?|]] ?]]; try done.
  all: destruct to_language as [dest|]; try done.
  all: case_bool_decide; try done.
  all: by destruct (googletrans _ _ _ _).
Qed.

(** X10: once the upload is saved, the temporary file is gone when the
    request is over, and [os.remove] is the last call, whatever the engine
    and the translation client did. *)
Lemma saved_tempfile_is_removed env request audio_file stem w :
  method request = POST →
  files request !! "audio_file" = Some audio_file →
  mkstemp env = inr stem →
  save_fault env = None →
  remove_fault env = None →
  fs (serve env request w).2 = delete (stem +:+ ".mp3") (fs w) ∧
  last (calls (serve env request w).2) = Some (EvRemove (stem +:+ ".mp3")).
Proof.
  intros Hm Hf Hs Hw Hr.
  rewrite (serve_eq _ _ _ Hm Hf), save_upload_eq, Hs, Hw. cbn.
  match goal with
  | |- context [process ?e ?n ?f ?t ?w1] =>
      pose proof (process_fs e n f t w1) as Hfs;
      destruct (process e n f t w1) as [o w2]
  end.
  rewrite cleanup_eq, Hr. cbn in *.
  rewrite Hfs, !delete_insert_eq. split; [done | apply last_snoc].
Qed.


(** C1, at a request whose upload cannot be written: the answer is a 500,
    no deletion is attempted, and the temporary file that was created for
    the request is still on disk when the request is over. *)
Theorem failed_save_leaves_tempfile :
  let request := Sample.upload ∅ in
  let after := serve Sample.env_disk_full request Sample.disk in
  fs Sample.disk !! "/tmp/tmpk3v9.mp3" = None ∧
  (∃ resp, after.1 = Ok resp ∧ status resp = 500%Z) ∧
  new_calls Sample.env_disk_full request Sample.disk
    = [EvTempfile "/tmp/tmpk3v9.mp3"; EvSave "/tmp/tmpk3v9.mp3"] ∧
  fs after.2 !! "/tmp/tmpk3v9.mp3" = Some [].
Proof.
  cbn zeta. split; [reflexivity|]. split; [|split; reflexivity].
  eexists. split; reflexivity.
Qed.

Lemma segment_text_dict segment :
  segment_text (segment_dict segment) = text segment.
Proof. reflexivity. Qed.

Lemma segments_text_result full_text translated_text segments_list language :
  segments_text (result full_text translated_text segments_list language)
  = Some (String.concat EmptyString (segment_text <$> segments_list)).
Proof. reflexivity. Qed.

(** X7: with an engine whose segments are a list, a request without
    [to_language] has no translation and its transcript is the
    concatenation of the texts in the returned [segments] array. *)
Lemma list_segments_spell_transcript env request audio_file items info w :
  method request = POST →
  files request !! "audio_file" = Some audio_file →
  form request !! "to_language" = None →
  engine env (Some (stream audio_file)) (form request !! "from_language")
    = inr (PyList items, info) →
  ∀ resp, (serve env request w).1 = Ok resp → status resp = 200%Z →
    body resp !! "translated_text" = Some JNull ∧
    body resp !! "transcript_text"
      = Some (JString (String.concat EmptyString (text <$> items))) ∧
    segments_text (body resp) = Some (String.concat EmptyString (text <$> items)).
Proof.
  intros Hm Hf Ht He resp. flatten Hm Hf.
  all: intros [= <-]; try done.
  all: intros _; repeat split; try reflexivity.
  all: cbn [body jsonify]; rewrite segments_text_result.
  all: rewrite <- list_fmap_compose.
  all: by rewrite (list_fmap_ext _ text items)
         by (intros; apply segment_text_dict).
Qed.

(** X8: with an engine whose segments are a generator, the [segments]
    array of a successful response is empty whatever was transcribed, the
    transcript being complete. *)
Lemma generator_segments_never_returned env request audio_file pending info w :
  method request = POST →
  files request !! "audio_file" = Some audio_file →
  engine env (Some (stream audio_file)) (form request !! "from_language")
    = inr (PyGenerator pending None, info) →
  ∀ resp, (serve env request w).1 = Ok resp → status resp = 200%Z →
    body resp !! "transcript_text"
      = Some (JString (String.concat EmptyString (text <$> pending))) ∧
    body resp !! "segments" = Some (JArray []).
Proof.
  intros Hm Hf He resp. flatten Hm Hf.
  all: by intros [= <-].
Qed.

(** C2, at an upload that the engine transcribes as a generator of two
    segments: the response is a 200 without translation whose transcript
    is "hello world" while its [segments] array is empty, so that the
    texts of the returned segments concatenate to the empty string. *)
Theorem generator_segments_are_lost :
  let env := Sample.env (PyGenerator Sample.hello None) Sample.english in
  ∃ resp,
    (serve env (Sample.upload ∅) Sample.disk).1 = Ok resp ∧
    status resp = 200%Z ∧
    body resp !! "translated_text" = Some JNull ∧
    body resp !! "transcript_text" = Some (JString "hello world") ∧
    body resp !! "segments" = Some (JArray []) ∧
    segments_text (body resp) = Some EmptyString.
Proof. cbn zeta. eexists. repeat split; reflexivity. Qed.

(** C3 fails where the upload cannot be written: the 500 answer has no
    [trace] member. *)
Lemma save_failure_has_no_trace :
  let request := Sample.upload ∅ in
  failure Sample.env_disk_full request Sample.clip
    = Some (Saving, Sample.disk_full) ∧
  isinstance Sample.disk_full Exception = true ∧
  ∃ resp,
    (serve Sample.env_disk_full request Sample.disk).1 = Ok resp ∧
    status resp = 500%Z ∧
    body resp !! "trace" = None.
Proof.
  cbn zeta. split; [reflexivity|]. split; [reflexivity|].
  eexists. repeat split; reflexivity.
Qed.

(** C3, amended: when a collaborator fails with an [Exception] while a POST
    with an upload is served, the answer is a 500 whose body has an
    [error] member and the exception text as [details]; it has the
    traceback as [trace] when the failure is one of transcription or
    translation, and no [trace] when it is one of saving the upload. *)
Theorem failure_is_500 env request audio_file w stage e :
  method request = POST →
  files request !! "audio_file" = Some audio_file →
  (∀ e', remove_fault env = Some e' → isinstance e' Exception = true) →
  failure env request audio_file = Some (stage, e) →
  isinstance e Exception = true →
  ∃ resp,
    (serve env request w).1 = Ok resp ∧
    status resp = 500%Z ∧
    is_Some (body resp !! "error") ∧
    body resp !! "details" = Some (JString (str e)) ∧
    body resp !! "trace" =
      match stage with
      | Saving => None
      | Transcribing | Translating => Some (JString (format_exc e))
      end.
Proof.
  intros Hm Hf Hrm Hfail He. revert Hfail. unfold failure.
  flatten Hm Hf.
  all: intros Heq; simplify_eq.
  all: try match goal with
           | H : isinstance ?x Exception = false |- _ =>
               rewrite (Hrm x) in H by done; discriminate
           end.
  all: try congruence.
  all: eexists; repeat split; try reflexivity; by eexists.
Qed.

Lemma failure_is_500_witness :
  ∃ resp,
    (serve Sample.env_offline (Sample.upload {[ "to_language" := "ja" ]})
           Sample.disk).1 = Ok resp ∧
    status resp = 500%Z ∧
    is_Some (body resp !! "error") ∧
    body resp !! "details" = Some (JString (str Sample.unreachable)) ∧
    body resp !! "trace" = Some (JString (format_exc Sample.unreachable)).
Proof.
  apply (failure_is_500 Sample.env_offline
           (Sample.upload {[ "to_language" := "ja" ]}) Sample.clip
           Sample.disk Translating Sample.unreachable);
    [reflexivity | reflexivity | discriminate | reflexivity | reflexivity].
Defined.

(** **** Further properties of the handler *)

(** X1: a GET is the health check whatever else the request carries: the
    answer is 200 [{"status": "ok"}], no collaborator is called and the
    world is left as it was. *)
Theorem health_check_is_ok env request w :
  method request = GET →
  serve env request w = (Ok (jsonify {[ "status" := JString "ok" ]} 200), w).
Proof.
  intros Hm. unfold serve, transcribe, transcribe_body. by rewrite Hm.
Qed.

Lemma health_check_is_ok_witness :
  serve Sample.env_offline Sample.ping Sample.disk
  = (Ok (jsonify {[ "status" := JString "ok" ]} 200), Sample.disk).
Proof. apply health_check_is_ok; reflexivity. Defined.





(** X4: when a target language is given and the request succeeds, the
    translation client was given the whole transcript and the reported
    language (or ["auto"]), and what it returned is the
    [translated_text] of the response. *)
Theorem translation_is_returned env request audio_file it info dest w :
  method request = POST →
  files request !! "audio_file" = Some audio_file →
  engine env (Some (stream audio_file)) (form request !! "from_language")
    = inr (it, info) →
  form request !! "to_language" = Some dest →
  dest ≠ EmptyString →
  ∀ resp, (serve env request w).1 = Ok resp → status resp = 200%Z →
    ∃ t,
      googletrans env (String.concat EmptyString (text <$> yielded it))
        (source_language
           (reported_language info (form request !! "from_language")))
        dest = inr t ∧
      body resp !! "transcript_text"
        = Some (JString (String.concat EmptyString (text <$> yielded it))) ∧
      body resp !! "translated_text" = Some (JString t).
Proof.
  intros Hm Hf He Ht Hd resp. flatten Hm Hf.
  all: intros [= <-]; try done.
  all: intros _; eexists; split; [reflexivity|]; split; reflexivity.
Qed.

Lemma translation_is_returned_witness :
  let env := Sample.env (PyList Sample.hello) Sample.english in
  let resp := jsonify (result "hello world" (Some "[ja]hello world")
                         (segment_dict <$> Sample.hello) (Some "en")) 200 in
  ∃ t,
    googletrans env "hello world" "en" "ja" = inr t ∧
    body resp !! "transcript_text" = Some (JString "hello world") ∧
    body resp !! "translated_text" = Some (JString t).
Proof.
  exact (translation_is_returned
           (Sample.env (PyList Sample.hello) Sample.english)
           (Sample.upload {[ "to_language" := "ja" ]})
           Sample.clip (PyList Sample.hello) Sample.english "ja" Sample.disk
           eq_refl eq_refl eq_refl eq_refl ltac:(discriminate)
           _ eq_refl eq_refl).
Defined.

(** X5: once the upload is saved the collaborators are called in one
    order: the engine once, on the temporary file and with the
    [from_language] hint; then the translation client at most once, and
    only for a [to_language] that is not empty; then [os.remove] on the
    temporary file, last and always. *)
Theorem calls_are_sequenced env request audio_file stem w :
  method request = POST →
  files request !! "audio_file" = Some audio_file →
  mkstemp env = inr stem →
  save_fault env = None →
  let name := stem +:+ ".mp3" in
  ∃ mid,
    new_calls env request w =
      ([EvTempfile name; EvSave name;
        EvTranscribe name (form request !! "from_language")]
       ++ mid ++ [EvRemove name])%list ∧
    (mid = [] ∨
     ∃ src dest txt,
       mid = [EvTranslate src dest txt] ∧
       form request !! "to_language" = Some dest ∧
       dest ≠ EmptyString).
Proof.
  intros Hm Hf Hs Hw. cbn zeta. unfold new_calls. flatten Hm Hf.
  all: simplify_eq; new_calls_list.
  all: try (exists []; split; [done | by left]).
  all: eexists [_]; split; [done|]; right; by do 3 eexists.
Qed.

Lemma calls_are_sequenced_witness :
  let env := Sample.env_offline in
  let request := Sample.upload {[ "to_language" := "ja" ]} in
  ∃ mid,
    new_calls env request Sample.disk =
      ([EvTempfile "/tmp/tmpk3v9.mp3"; EvSave "/tmp/tmpk3v9.mp3";
        EvTranscribe "/tmp/tmpk3v9.mp3" None]
       ++ mid ++ [EvRemove "/tmp/tmpk3v9.mp3"])%list ∧
    (mid = [] ∨
     ∃ src dest txt,
       mid = [EvTranslate src dest txt] ∧
       form request !! "to_language" = Some dest ∧
       dest ≠ EmptyString).
Proof.
  exact (calls_are_sequenced Sample.env_offline
           (Sample.upload {[ "to_language" := "ja" ]}) Sample.clip
           "/tmp/tmpk3v9" Sample.disk eq_refl eq_refl eq_refl eq_refl).
Defined.

(** X6: with an engine whose segments are a list, the [segments] array of
    a successful response has one object for each segment, in the
    engine's order, with exactly the members [start], [end] and [text]
    of that segment. *)
Theorem list_segments_are_returned_in_order
    env request audio_file items info w :
  method request = POST →
  files request !! "audio_file" = Some audio_file →
  engine env (Some (stream audio_file)) (form request !! "from_language")
    = inr (PyList items, info) →
  ∀ resp, (serve env request w).1 = Ok resp → status resp = 200%Z →
    ∃ l,
      body resp !! "segments" = Some (JArray l) ∧
      length l = length items ∧
      ∀ i segment, items !! i = Some segment →
        ∃ o, l !! i = Some (JObject o) ∧
             o !! "start" = Some (JNumber (start segment)) ∧
             o !! "end" = Some (JNumber (end_ segment)) ∧
             o !! "text" = Some (JString (text segment)) ∧
             dom o = ({[ "start"; "end"; "text" ]} : gset string).
Proof.
  intros Hm Hf He resp. flatten Hm Hf.
  all: intros [= <-]; try done.
  all: intros _; exists (segment_dict <$> items).
  all: split; [reflexivity|]; split; [apply length_fmap|].
  all: intros i segment Hi; eexists; rewrite list_lookup_fmap, Hi.
  all: split; [reflexivity|]; repeat split; reflexivity.
Qed.

Lemma list_segments_are_returned_in_order_witness :
  let resp := jsonify (result "hello world" None
                         (segment_dict <$> Sample.hello) (Some "en")) 200 in
  ∃ l,
    body resp !! "segments" = Some (JArray l) ∧
    length l = length Sample.hello ∧
    ∀ i segment, Sample.hello !! i = Some segment →
      ∃ o, l !! i = Some (JObject o) ∧
           o !! "start" = Some (JNumber (start segment)) ∧
           o !! "end" = Some (JNumber (end_ segment)) ∧
           o !! "text" = Some (JString (text segment)) ∧
           dom o = ({[ "start"; "end"; "text" ]} : gset string).
Proof.
  exact (list_segments_are_returned_in_order
           (Sample.env (PyList Sample.hello) Sample.english)
           (Sample.upload ∅) Sample.clip Sample.hello Sample.english
           Sample.disk eq_refl eq_refl eq_refl _ eq_refl eq_refl).
Defined.

Lemma list_segments_spell_transcript_witness :
  let resp := jsonify (result "hello world" None
                         (segment_dict <$> Sample.hello) (Some "en")) 200 in
  body resp !! "translated_text" = Some JNull ∧
  body resp !! "transcript_text" = Some (JString "hello world") ∧
  segments_text (body resp) = Some "hello world".
Proof.
  exact (list_segments_spell_transcript
           (Sample.env (PyList Sample.hello) Sample.english)
           (Sample.upload ∅) Sample.clip Sample.hello Sample.english
           Sample.disk eq_refl eq_refl eq_refl eq_refl _ eq_refl eq_refl).
Defined.

Lemma generator_segments_never_returned_witness :
  let resp := jsonify (result "hello world" (Some "[ja]hello world")
                         [] (Some "en")) 200 in
  body resp !! "transcript_text" = Some (JString "hello world") ∧
  body resp !! "segments" = Some (JArray []).
Proof.
  exact (generator_segments_never_returned
           (Sample.env (PyGenerator Sample.hello None) Sample.english)
           (Sample.upload {[ "to_language" := "ja" ]}) Sample.clip
           Sample.hello Sample.english Sample.disk
           eq_refl eq_refl eq_refl _ eq_refl eq_refl).
Defined.

Lemma deletion_failure_is_swallowed_witness :
  (serve Sample.env_locked (Sample.upload ∅) Sample.disk).1 =
  (serve {| mkstemp := mkstemp Sample.env_locked;
            save_fault := save_fault Sample.env_locked;
            engine := engine Sample.env_locked;
            googletrans := googletrans Sample.env_locked;
            remove_fault := None |} (Sample.upload ∅) Sample.disk).1.
Proof.
  apply (deletion_failure_is_swallowed Sample.env_locked (Sample.upload ∅)
           Sample.disk Sample.locked); reflexivity.
Defined.

Lemma saved_tempfile_is_removed_witness :
  let after := serve Sample.env_offline
                 (Sample.upload {[ "to_language" := "ja" ]}) Sample.disk in
  fs after.2 = delete "/tmp/tmpk3v9.mp3" (fs Sample.disk) ∧
  last (calls after.2) = Some (EvRemove "/tmp/tmpk3v9.mp3").
Proof.
  exact (saved_tempfile_is_removed Sample.env_offline
           (Sample.upload {[ "to_language" := "ja" ]}) Sample.clip
           "/tmp/tmpk3v9" Sample.disk
           eq_refl eq_refl eq_refl eq_refl eq_refl).
Defined.


End PipelineFacts.

(** *** Start-up and shutdown *)

Module StartupFacts.
Import Startup.

Ltac crunch := repeat (progress (unfold_monad; cbn -[loads probes])).

Lemma loads_emit ev p :
  loads (emit ev p) = (loads p + if is_load ev then 1 else 0)%nat.
Proof.
  unfold loads, emit. cbn. rewrite List.filter_app, length_app. cbn.
  by destruct (is_load ev).
Qed.


Lemma loads_set_globals f p : loads (set_globals f p) = loads p.
Proof. done. Qed.


Lemma is_cuda_available_eq {R} host p :
  @def Proc bool R (is_cuda_available host) p =
    let p1 := emit EvProbe p in
    if bool_decide (sys_platform host ≠ "win32") then (Ok false, p1)
    else
      let p2 := emit (EvLoadLibrary "nvcuda.dll") p1 in
      match LoadLibraryW host (loads p) "nvcuda.dll" with
      | inr handle => (Ok (negb (bool_decide (handle = 0%Z))), p2)
      | inl e => (if isinstance e OSError then Ok false else Raise e, p2)
      end.
Proof.
  unfold is_cuda_available. crunch.
  case_bool_decide; crunch; [done|].
  rewrite loads_emit. cbn. rewrite Nat.add_0_r.
  destruct (LoadLibraryW _ _ _) as [e|handle]; crunch; [|done].
  by destruct (isinstance e OSError).
Qed.







Ltac names :=
  repeat (match goal with
          | |- context [bool_decide (?x ∈ ?X)] =>
              first [ rewrite (bool_decide_eq_true_2 (x ∈ X))
                        by (set_unfold; intuition congruence)
                    | rewrite (bool_decide_eq_false_2 (x ∈ X))
                        by (set_unfold; intuition congruence) ]
          end; crunch).

(** X16: whatever fails in the [try] block of the [__main__] block, what
    leaves the statement is the [NameError] for [ssl]: the module does not
    import [ssl], and [gevent.wait()] is not reached. *)
Lemma startup_failure_raises_NameError host p e :
  "ssl" ∉ globals p →
  new_server host 9000 = None →
  startup_failure host = Some e →
  ∃ p',
    main host p = (Raise (with_context e ssl_is_not_defined), p') ∧
    EvWait ∉ drop (length (events p)) (events p').
Proof.
  intros Hssl H0 Hfail. unfold startup_failure in Hfail.
  unfold main, WSGIServer, start, ssl_SSLError, bind_names, bind_name, print,
    fault, gevent_wait, load_name.
  rewrite H0. crunch.
  destruct (new_server host 9443) as [e1|]; crunch.
  - injection Hfail as ->. names.
    eexists. split; [done|]. cbn. rewrite drop_all. apply not_elem_of_nil.
  - names. destruct (start_server host 9000) as [e1|]; crunch.
    + injection Hfail as ->. names.
      eexists. split; [done|]. cbn. rewrite drop_app_length.
      by_computation.
    + names. rewrite Hfail. crunch. names.
      eexists. split; [done|]. cbn. rewrite <- !app_assoc, drop_app_length.
      by_computation.
Qed.

(** C8: with both servers built and started, a [KeyboardInterrupt] in
    [gevent.wait()] stops the plaintext server, then the TLS server, and
    the process exits with status 0. *)
Theorem interrupt_stops_both_servers host p msg tb :
  new_server host 9000 = None →
  new_server host 9443 = None →
  start_server host 9000 = None →
  start_server host 9443 = None →
  wait host = Some (Error KeyboardInterrupt msg tb) →
  ∃ p',
    python host (main host) p = (0%Z, p') ∧
    events p' = (events p ++
      [ EvStdout "Starting HTTP server on port 9000"; EvStart 9000;
        EvStdout "Starting HTTPS server on port 9443"; EvStart 9443;
        EvStdout "Servers are running. Press Ctrl+C to stop.";
        EvWait;
        EvStdout (nl +:+ "Shutdown requested. Stopping servers...");
        EvStop 9000; EvStop 9443;
        EvStdout "Servers stopped successfully." ])%list ∧
    (9000%Z ∉ listening p') ∧
    (9443%Z ∉ listening p').
Proof.
  intros Hn0 Hn1 Hs0 Hs1 Hw.
  unfold python, main, WSGIServer, start, stop, ssl_SSLError, bind_names,
    bind_name, print, fault, gevent_wait, load_name, sys_exit.
  rewrite Hn0, Hn1, Hs0, Hs1, Hw. crunch. names.
  change (issubclass KeyboardInterrupt KeyboardInterrupt) with true.
  crunch. names.
  eexists. split; [done|]. cbn. rewrite <- !app_assoc. cbn.
  split; [done|]. split; set_unfold; intuition congruence.
Qed.

Lemma interrupt_stops_both_servers_witness :
  ∃ p',
    python HostSample.linux (main HostSample.linux) boot = (0%Z, p') ∧
    events p' = (events boot ++
      [ EvStdout "Starting HTTP server on port 9000"; EvStart 9000;
        EvStdout "Starting HTTPS server on port 9443"; EvStart 9443;
        EvStdout "Servers are running. Press Ctrl+C to stop.";
        EvWait;
        EvStdout (nl +:+ "Shutdown requested. Stopping servers...");
        EvStop 9000; EvStop 9443;
        EvStdout "Servers stopped successfully." ])%list ∧
    (9000%Z ∉ listening p') ∧
    (9443%Z ∉ listening p').
Proof.
  apply (interrupt_stops_both_servers HostSample.linux boot
           EmptyString "KeyboardInterrupt"); reflexivity.
Defined.

Lemma startup_failure_raises_NameError_witness :
  ∃ p',
    main HostSample.bad_certificate HostSample.at_main
      = (Raise (with_context HostSample.pem_error ssl_is_not_defined), p') ∧
    (EvWait ∉ drop (length (events HostSample.at_main)) (events p')).
Proof.
  apply (startup_failure_raises_NameError HostSample.bad_certificate
           HostSample.at_main HostSample.pem_error);
    [by_computation | reflexivity | reflexivity].
Defined.

(** **** Further properties of start-up and shutdown *)




Ltac settled :=
  eexists _, _, _; split; [reflexivity|]; cbn;
  split; [rewrite <- ?app_assoc; reflexivity|];
  split; [repeat constructor; by right | by eauto].

(** Lines 39-41 only probe: nothing is printed, logged or started, and
    what is raised, if anything, comes from [LoadLibraryW] and is no
    [OSError]. *)
Lemma settings_frame host p :
  ∃ o l p',
    settings host p = (o, p') ∧
    events p' = (events p ++ l)%list ∧
    Forall quiet l ∧
    excepthook p' = excepthook p ∧
    listening p' = listening p ∧
    match o with
    | Ok cfg => COMPUTE_TYPE cfg = "auto"
    | Raise e =>
        isinstance e OSError = false ∧
        ∃ n, LoadLibraryW host n "nvcuda.dll" = inl e
    | Return _ => False
    end.
Proof.
  unfold settings, bind_name.
  unfold mbind, M_bind, mret, M_ret, bind, ret, modify.
  rewrite is_cuda_available_eq. cbn -[def loads].
  case_bool_decide as Hp; cbn -[def loads].
  - rewrite is_cuda_available_eq. cbn.
    rewrite bool_decide_eq_true_2 by done. cbn. settled.
  - rewrite loads_set_globals.
    destruct (LoadLibraryW host (loads p) _) as [e1|h1] eqn:H1;
      cbn -[def loads].
    1: destruct (isinstance e1 OSError) eqn:?; cbn -[def loads]; [|settled].
    all: rewrite is_cuda_available_eq; cbn -[loads].
    all: rewrite bool_decide_eq_false_2 by (by intros []); cbn -[loads].
    all: repeat (rewrite loads_set_globals || rewrite loads_emit).
    all: cbn -[loads].
    all: destruct (LoadLibraryW host (loads p + 0 + 1) _)
           as [e2|h2] eqn:H2; cbn.
    all: try destruct (isinstance e2 OSError) eqn:?; cbn.
    all: settled.
Qed.

Lemma elem_of_quiet l ev : Forall quiet l → ev ∈ l → quiet ev.
Proof. intros Hl Hin. rewrite Forall_forall in Hl. auto. Qed.

(** An event that is no probe event is not in the list of the goal, made
    of the probe events [l] and of events written out. *)
Ltac no_such_event Hl :=
  cbn; rewrite ?elem_of_app, ?list_elem_of_singleton;
  intros Hin; decompose [or] Hin; try discriminate;
  match goal with
  | H : _ ∈ _ |- _ => by destruct (elem_of_quiet _ _ Hl H)
  end.

(** X14: when the model cannot be loaded the process ends at once with
    status 1, its last act being the line "Error loading model: ..." on
    stderr; no listener is started and nothing goes to [error.log], the
    hook of line 164 not being installed yet. *)
Theorem model_load_failure_is_fatal host e :
  (∀ n e', LoadLibraryW host n "nvcuda.dll" = inl e' →
           isinstance e' OSError = true) →
  (∀ model device, load_model host model device "auto" = Some e) →
  isinstance e Exception = true →
  (run host).1 = 1%Z ∧
  last (events (run host).2)
    = Some (EvStderr ("Error loading model: " +:+ str e)) ∧
  (∀ port, EvStart port ∉ events (run host).2) ∧
  (∀ line, EvErrorLog line ∉ events (run host).2).
Proof.
  intros Hos Hload He.
  unfold run, python, module, bind_names.
  unfold mbind, M_bind, mret, M_ret, bind, ret, modify.
  cbn -[settings load definitions main imports].
  destruct (settings_frame host
              (set_globals (λ g, list_to_set imports ∪ g) boot))
    as (o & l & p1 & -> & Hev & Hl & Hhook & _ & Ho).
  cbn in Hev, Hhook.
  destruct o as [cfg|e'|r]; [| |done].
  - unfold load, print, print_stderr, fault, sys_exit.
    rewrite Ho, Hload. crunch. rewrite He. crunch. rewrite Hev.
    split; [done|]. split; [apply last_snoc|].
    split; intros ?; no_such_event Hl.
  - destruct Ho as [Hno [n Hn]]. by rewrite (Hos _ _ Hn) in Hno.
Qed.

Lemma model_load_failure_is_fatal_witness :
  (run HostSample.no_model).1 = 1%Z ∧
  last (events (run HostSample.no_model).2)
    = Some (EvStderr ("Error loading model: "
                      +:+ str HostSample.out_of_memory)) ∧
  (∀ port, EvStart port ∉ events (run HostSample.no_model).2) ∧
  (∀ line, EvErrorLog line ∉ events (run HostSample.no_model).2).
Proof.
  apply (model_load_failure_is_fatal HostSample.no_model
           HostSample.out_of_memory);
    [intros n e'; discriminate | reflexivity | reflexivity].
Defined.



(** X17: when the TLS server cannot be built, the [try] block is left
    before anything else in it has run: nothing is printed and no
    listener is started, the plaintext one included; what leaves the
    statement is the [NameError] for [ssl]. *)
Theorem unbuilt_tls_server_starts_nothing host p e :
  "ssl" ∉ globals p →
  new_server host 9000 = None →
  new_server host 9443 = Some e →
  ∃ p',
    main host p = (Raise (with_context e ssl_is_not_defined), p') ∧
    events p' = events p ∧
    listening p' = listening p.
Proof.
  intros Hssl Hn0 Hn1.
  unfold main, WSGIServer, start, ssl_SSLError, bind_names, bind_name, print,
    fault, gevent_wait, load_name.
  rewrite Hn0, Hn1. crunch. names.
  by eexists.
Qed.

Lemma unbuilt_tls_server_starts_nothing_witness :
  ∃ p',
    main HostSample.no_key HostSample.at_main
      = (Raise (with_context HostSample.key_missing ssl_is_not_defined), p') ∧
    events p' = events HostSample.at_main ∧
    listening p' = listening HostSample.at_main.
Proof.
  apply (unbuilt_tls_server_starts_nothing HostSample.no_key
           HostSample.at_main HostSample.key_missing);
    [by_computation | reflexivity | reflexivity].
Defined.

(** X18: only [KeyboardInterrupt] is handled around [gevent.wait()].  Any
    other error raised in it goes to the hook of line 164, which writes
    the traceback to [error.log] and to the console and ends the process
    with status 1; neither server is stopped. *)
Theorem other_errors_in_wait_stop_nothing host p c msg tb :
  excepthook p = true →
  new_server host 9000 = None →
  new_server host 9443 = None →
  start_server host 9000 = None →
  start_server host 9443 = None →
  wait host = Some (Error c msg tb) →
  c ≠ KeyboardInterrupt →
  ∃ p',
    python host (main host) p = (1%Z, p') ∧
    listening p' = {[ 9443%Z ]} ∪ ({[ 9000%Z ]} ∪ listening p) ∧
    (∀ port, EvStop port ∉ drop (length (events p)) (events p')) ∧
    (EvErrorLog tb ∈ events p') ∧
    last (events p') = Some (EvStdout tb).
Proof.
  intros Hhook Hn0 Hn1 Hs0 Hs1 Hw Hc.
  unfold python, main, WSGIServer, start, stop, ssl_SSLError, bind_names,
    bind_name, print, fault, gevent_wait, load_name, sys_exit.
  rewrite Hn0, Hn1, Hs0, Hs1, Hw. crunch. names.
  replace (issubclass c KeyboardInterrupt) with false
    by (by destruct c).
  crunch. rewrite Hhook. unfold custom_exception_handler, print, sys_exit.
  crunch.
  eexists. split; [done|]. cbn. split; [done|].
  rewrite <- !app_assoc. cbn. rewrite drop_app_length.
  split; [|split].
  - intros port. rewrite !not_elem_of_cons. repeat split; try done.
    apply not_elem_of_nil.
  - rewrite elem_of_app. right. rewrite !elem_of_cons. tauto.
  - by rewrite last_app.
Qed.

Lemma other_errors_in_wait_stop_nothing_witness :
  ∃ p',
    python HostSample.crashing (main HostSample.crashing) HostSample.at_main
      = (1%Z, p') ∧
    listening p'
      = {[ 9443%Z ]} ∪ ({[ 9000%Z ]} ∪ listening HostSample.at_main) ∧
    (∀ port, EvStop port
             ∉ drop (length (events HostSample.at_main)) (events p')) ∧
    (EvErrorLog "RuntimeError: hub is dead" ∈ events p') ∧
    last (events p') = Some (EvStdout "RuntimeError: hub is dead").
Proof.
  apply (other_errors_in_wait_stop_nothing HostSample.crashing
           HostSample.at_main RuntimeError "hub is dead"
           "RuntimeError: hub is dead");
    reflexivity || discriminate.
Defined.

End StartupFacts.
